(** * Resource-collection facades of the Cosmos JavaScript client

    A shallow embedding of [UserDefinedFunctions]
    (src/client/UserDefinedFunction/UserDefinedFunctions.ts) and of the
    [Databases] facade, together with the properties their specification
    states about them.

    JavaScript objects are finite maps from property names to values and
    live in a heap indexed by references, so that an object handed in by the
    caller and mutated by a method is the same object afterwards.  A method
    is a finite interaction tree: it returns, throws, or calls into the
    request-dispatch layer ([ClientContext] / [documentClient]) and continues
    with whatever that layer answers. *)

From stdpp Require Import gmap strings list fin_maps.

Local Open Scope string_scope.

(** ** JavaScript values, objects and the heap *)

Definition loc := positive.

Inductive JsVal : Type :=
| VUndefined
| VString (s : string)
| VFunction (src : string)
| VRef (l : loc).

Abbreviation JsObject := (gmap string JsVal).
Abbreviation Heap := (gmap loc JsObject).

(** [if (v)]: undefined and the empty string are falsy, every function and
    every object is truthy. *)
Definition truthy (v : JsVal) : bool :=
  match v with
  | VUndefined => false
  | VString s => negb (String.eqb s "")
  | VFunction _ => true
  | VRef _ => true
  end.

(** [v.toString()]: a string is its own string form, a function yields its
    source text, a plain object yields the default tag.  The facades only
    call it under a truthiness guard, so [undefined] never reaches it; its
    branch is the text JavaScript prints for it. *)
Definition toString (v : JsVal) : string :=
  match v with
  | VUndefined => "undefined"
  | VString s => s
  | VFunction src => src
  | VRef _ => "[object Object]"
  end.

(** [o.p]: a missing property reads as [undefined]. *)
Definition prop (o : JsObject) (p : string) : JsVal :=
  default VUndefined (o !! p).

(** The object a reference points to.  References held by running code are
    live; the default only makes the function total. *)
Definition obj (h : Heap) (l : loc) : JsObject :=
  default ∅ (h !! l).

(** ** Resource handles and response shapes *)

Record ClientContext : Type := { clientContext_ref : positive }.
Record DocumentClient : Type := { documentClient_ref : positive }.
Record CosmosClient : Type := { documentClient : DocumentClient }.

Record Database : Type := new_Database
  { database_client : CosmosClient; database_id : string }.

Record Container : Type :=
  { container_database : Database; container_id : string; url : string }.

Record UserDefinedFunction : Type := new_UserDefinedFunction
  { udf_container : Container; udf_id : JsVal; udf_clientContext : ClientContext }.

Record SqlQuerySpec : Type :=
  { query_text : string; parameters : list (string * JsVal) }.

Abbreviation FeedOptions := JsObject.
Abbreviation RequestOptions := JsObject.

(** What the dispatch layer resolves with. *)
Record Response : Type := { result : JsObject; headers : JsObject }.

Module UserDefinedFunctionResponse.
Record t : Type :=
  { body : JsObject;
    headers : JsObject;
    ref : UserDefinedFunction;
    userDefinedFunction : UserDefinedFunction;
    udf : UserDefinedFunction }.
End UserDefinedFunctionResponse.

(** A promise, seen through the value it settles with. *)
Inductive Promise (A : Type) : Type :=
| Fulfilled (a : A)
| Rejected (e : JsVal).
Arguments Fulfilled {A} a.
Arguments Rejected {A} e.

(** A synchronous call either returns or throws. *)
Inductive CallResult (A : Type) : Type :=
| Returned (a : A)
| Threw (e : JsVal).
Arguments Returned {A} a.
Arguments Threw {A} e.

(** The iterator [documentClient] hands out; its content is the dispatch
    layer's business. *)
Record DocumentQueryIterator : Type := { iterator_ref : positive }.

(** ** The request-dispatch layer, as events *)

Inductive dispatchE : Type -> Type :=
| ClientContext_create (ctx : ClientContext) (body : loc) (path type id : string)
    (initialHeaders : JsVal) (options : option RequestOptions)
  : dispatchE (Promise Response)
| ClientContext_upsert (ctx : ClientContext) (body : loc) (path type id : string)
    (initialHeaders : JsVal) (options : option RequestOptions)
  : dispatchE (Promise Response)
| ClientContext_queryFeed (ctx : ClientContext) (path type id : string)
    (resultFn : JsObject -> JsVal) (query : option SqlQuerySpec)
    (options : option FeedOptions)
  : dispatchE (Promise Response)
| DocumentClient_queryDatabases (dc : DocumentClient)
    (query : option SqlQuerySpec) (options : option FeedOptions)
  : dispatchE DocumentQueryIterator
| DocumentClient_createDatabase (dc : DocumentClient) (body : loc)
    (options : option RequestOptions)
  : dispatchE (Promise Response)
| DocumentClient_readDatabases (dc : DocumentClient) (options : option FeedOptions)
  : dispatchE DocumentQueryIterator.

(** ** Method bodies as finite interaction trees *)

(** A tree node is a point where the method stops ([Done], [Fail]) or calls
    into the dispatch layer ([Call]) and goes on with the answer.  Each node
    carries the store at that point; a single invocation is followed, so the
    store does not change while the dispatch layer is at work. *)

(** The store a method runs in: its receiver [this] and the heap. *)
Record Store (T : Type) : Type := mkStore { self : T; heap : Heap }.
Arguments mkStore {T} self heap.
Arguments self {T} s.
Arguments heap {T} s.

Inductive Act (S R : Type) : Type :=
| Done (s : S) (r : R)
| Fail (s : S) (e : JsVal)
| Call {X : Type} (s : S) (c : dispatchE X) (k : CallResult X -> Act S R).
Arguments Done {S R} s r.
Arguments Fail {S R} s e.
Arguments Call {S R X} s c k.

Fixpoint act_bind {S A B : Type} (a : Act S A) (f : A -> S -> Act S B) : Act S B :=
  match a with
  | Done s r => f r s
  | Fail s e => Fail s e
  | Call s c k => Call s c (fun x => act_bind (k x) f)
  end.

Definition M (T R : Type) : Type := Store T -> Act (Store T) R.

Definition ret {T R : Type} (r : R) : M T R := fun s => Done s r.
Definition throw {T R : Type} (e : JsVal) : M T R := fun s => Fail s e.
Definition bind {T A B : Type} (m : M T A) (f : A -> M T B) : M T B :=
  fun s => act_bind (m s) f.

Declare Scope js_scope.
Delimit Scope js_scope with js.
Notation "'let!' x ':=' m 'in' k" := (bind m (fun x => k))
  (at level 10, x name, m at level 100, k at level 200) : js_scope.
Notation "'do!' m 'in' k" := (bind m (fun _ => k))
  (at level 10, m at level 100, k at level 200) : js_scope.
Local Open Scope js_scope.

(** [f(...)] for a method [f] of the dispatch layer: what it returns is the
    value of the call, what it throws is thrown on. *)
Definition call {T X : Type} (c : dispatchE X) : M T X :=
  fun s => Call s c (fun r => match r with
                              | Returned x => Done s x
                              | Threw e => Fail s e
                              end).

(** [await p]: the fulfilment value, or the rejection reason thrown. *)
Definition await {T A : Type} (p : Promise A) : M T A :=
  fun s => match p with
           | Fulfilled a => Done s a
           | Rejected e => Fail s e
           end.

Definition get_self {T : Type} : M T T := fun s => Done s (self s).

(** [l.p] *)
Definition get_prop {T : Type} (l : loc) (p : string) : M T JsVal :=
  fun s => Done s (prop (obj (heap s) l) p).

(** [l.p = v] *)
Definition set_prop {T : Type} (l : loc) (p : string) (v : JsVal) : M T unit :=
  fun s => Done (mkStore (self s) (<[l := <[p := v]> (obj (heap s) l)]> (heap s))) tt.

(** An object literal: a fresh reference holding [o]. *)
Definition new_object {T : Type} (o : JsObject) : M T loc :=
  fun s => let l := fresh (dom (heap s)) in
           Done (mkStore (self s) (<[l := o]> (heap s))) l.

(** ** Running a tree against a dispatch layer *)

Definition Handler (S : Type) : Type := forall X, dispatchE X -> S -> CallResult X.

Inductive Outcome (S R : Type) : Type :=
| Returns (s : S) (r : R)
| Throws (s : S) (e : JsVal).
Arguments Returns {S R} s r.
Arguments Throws {S R} s e.

Definition LoggedCall : Type := { X : Type & dispatchE X }.

(** The calls made, oldest first, and how the method ended. *)
Fixpoint run {S R : Type} (h : Handler S) (a : Act S R) : list LoggedCall * Outcome S R :=
  match a with
  | Done s r => ([], Returns s r)
  | Fail s e => ([], Throws s e)
  | Call s c k =>
      let '(log, out) := run h (k (h _ c s)) in
      (existT _ c :: log, out)
  end.

(** ** The [Helper] functions the facades use *)

(** [Helper] is imported from "../../common" and is a parameter of the
    development.  [isResourceValid resource err] reads the resource, may
    write its findings into [err], and answers whether the resource is
    acceptable; it is taken to return normally and to leave the resource as
    it found it. *)
Class Helper : Type :=
  { isResourceValid : JsObject -> JsObject -> bool * JsObject;
    getPathFromLink : string -> option string -> string;
    getIdFromLink : string -> string }.

(** [Helper.isResourceValid(resource, err)] on two references. *)
Definition Helper_isResourceValid `{Helper} {T : Type} (resource err : loc) : M T bool :=
  fun s =>
    let '(ok, err') := isResourceValid (obj (heap s) resource) (obj (heap s) err) in
    Done (mkStore (self s) (<[err := err']> (heap s))) ok.

(** ** [UserDefinedFunctions] *)

Module UserDefinedFunctions.

Record t : Type :=
  { container : Container;
    clientContext : ClientContext;
    client : CosmosClient }.

Definition constructor (container : Container) (clientContext : ClientContext) : t :=
  {| container := container;
     clientContext := clientContext;
     client := database_client (container_database container) |}.

(** [new QueryIterator(clientContext, query, options, fetchFunctions)] *)
Record QueryIterator : Type := new_QueryIterator
  { iterator_clientContext : ClientContext;
    iterator_query : option SqlQuerySpec;
    iterator_options : option FeedOptions;
    fetchFunctions : option FeedOptions -> M t (Promise Response) }.

Section Methods.
Context `{Helper}.

Definition query (query : option SqlQuerySpec) (options : option FeedOptions)
  : M t QueryIterator :=
  let! this := get_self in
  let path := getPathFromLink (url (container this)) (Some "udfs") in
  let id := getIdFromLink (url (container this)) in
  ret (new_QueryIterator (clientContext this) query options
         (fun innerOptions =>
            let! this := get_self in
            call (ClientContext_queryFeed (clientContext this) path "udfs" id
                    (fun result => prop result "UserDefinedFunctions")
                    query innerOptions))).

Definition readAll (options : option FeedOptions) : M t QueryIterator :=
  query None options.

Definition create (body : loc) (options : option RequestOptions)
  : M t UserDefinedFunctionResponse.t :=
  let! b := get_prop body "body" in
  do! (if truthy b
       then let! b := get_prop body "body" in
            set_prop body "body" (VString (toString b))
       else ret tt) in
  let! err := new_object ∅ in
  let! valid := Helper_isResourceValid body err in
  if negb valid then throw (VRef err) else
  let! this := get_self in
  let path := getPathFromLink (url (container this)) (Some "udfs") in
  let id := getIdFromLink (url (container this)) in
  let! promise := call (ClientContext_create (clientContext this) body path "udfs" id
                          VUndefined options) in
  let! response := await promise in
  let! this := get_self in
  let ref := new_UserDefinedFunction (container this) (prop (result response) "id")
               (clientContext this) in
  ret {| UserDefinedFunctionResponse.body := result response;
         UserDefinedFunctionResponse.headers := headers response;
         UserDefinedFunctionResponse.ref := ref;
         UserDefinedFunctionResponse.userDefinedFunction := ref;
         UserDefinedFunctionResponse.udf := ref |}.

Definition upsert (body : loc) (options : option RequestOptions)
  : M t UserDefinedFunctionResponse.t :=
  let! b := get_prop body "body" in
  do! (if truthy b
       then let! b := get_prop body "body" in
            set_prop body "body" (VString (toString b))
       else ret tt) in
  let! err := new_object ∅ in
  let! valid := Helper_isResourceValid body err in
  if negb valid then throw (VRef err) else
  let! this := get_self in
  let path := getPathFromLink (url (container this)) (Some "udfs") in
  let id := getIdFromLink (url (container this)) in
  let! promise := call (ClientContext_upsert (clientContext this) body path "udfs" id
                          VUndefined options) in
  let! response := await promise in
  let! this := get_self in
  let ref := new_UserDefinedFunction (container this) (prop (result response) "id")
               (clientContext this) in
  ret {| UserDefinedFunctionResponse.body := result response;
         UserDefinedFunctionResponse.headers := headers response;
         UserDefinedFunctionResponse.ref := ref;
         UserDefinedFunctionResponse.userDefinedFunction := ref;
         UserDefinedFunctionResponse.udf := ref |}.

End Methods.

End UserDefinedFunctions.

(** ** [Databases] *)

Module Databases.

Record t : Type := constructor { client : CosmosClient }.

Definition getDatabase (id : string) : M t Database :=
  let! this := get_self in
  ret (new_Database (client this) id).

Definition query (query : option SqlQuerySpec) (options : option FeedOptions)
  : M t DocumentQueryIterator :=
  let! this := get_self in
  call (DocumentClient_queryDatabases (documentClient (client this)) query options).

Definition create (body : loc) (options : option RequestOptions)
  : M t (Promise Response) :=
  let! this := get_self in
  call (DocumentClient_createDatabase (documentClient (client this)) body options).

Definition read (options : option FeedOptions) : M t DocumentQueryIterator :=
  let! this := get_self in
  call (DocumentClient_readDatabases (documentClient (client this)) options).

End Databases.

(** * Vocabulary of the properties *)

(** ** What the methods do to a definition and to the store *)

(** The definition as [create] and [upsert] leave it before validating:
    a truthy [body] replaced by its string form. *)
Definition normalise (d : JsObject) : JsObject :=
  if truthy (prop d "body")
  then <["body" := VString (toString (prop d "body"))]> d
  else d.

(** The store once validation has run on the definition [d] held at [b]:
    [d] normalised in place, and the error object, at a reference that was
    free before, holding what the validator wrote. *)
Definition checked_store `{Helper} {T : Type} (s : Store T) (b : loc) (d : JsObject) : Store T :=
  mkStore (self s)
    (<[fresh (dom (heap s)) := snd (isResourceValid (normalise d) ∅)]>
       (<[b := normalise d]> (heap s))).

(** How [create] and [upsert] continue once the dispatch layer answers. *)
Definition after_dispatch (s : Store UserDefinedFunctions.t)
    (r : CallResult (Promise Response)) : Act (Store UserDefinedFunctions.t) UserDefinedFunctionResponse.t :=
  match r with
  | Returned (Fulfilled response) =>
      let handle := new_UserDefinedFunction
                      (UserDefinedFunctions.container (self s))
                      (prop (result response) "id")
                      (UserDefinedFunctions.clientContext (self s)) in
      Done s {| UserDefinedFunctionResponse.body := result response;
                UserDefinedFunctionResponse.headers := headers response;
                UserDefinedFunctionResponse.ref := handle;
                UserDefinedFunctionResponse.userDefinedFunction := handle;
                UserDefinedFunctionResponse.udf := handle |}
  | Returned (Rejected e) => Fail s e
  | Threw e => Fail s e
  end.

(** ** Shapes of trees *)

(** No path through the tree makes more than [n] dispatch calls. *)
Fixpoint at_most_calls {S R : Type} (n : nat) (a : Act S R) {struct a} : Prop :=
  match a with
  | Done _ _ | Fail _ _ => True
  | Call _ _ k =>
      match n with
      | O => False
      | S n' => forall r, at_most_calls n' (k r)
      end
  end.

(** The method stops, one way or the other, without a dispatch call. *)
Definition no_dispatch {S R : Type} (a : Act S R) : Prop :=
  match a with
  | Call _ _ _ => False
  | _ => True
  end.

(** The receiver is [t0] at every point of the tree. *)
Fixpoint keeps_self {T R : Type} (t0 : T) (a : Act (Store T) R) : Prop :=
  match a with
  | Done s _ | Fail s _ => self s = t0
  | Call s _ k => self s = t0 /\ forall r, keeps_self t0 (k r)
  end.

(** The store at the first point where the method stops or hands over to
    the dispatch layer. *)
Definition first_store {S R : Type} (a : Act S R) : S :=
  match a with
  | Done s _ | Fail s _ | Call s _ _ => s
  end.

(** How a dispatch call's answer reads as a failure: a thrown value, or the
    reason of a rejected promise. *)
Definition rejection {X : Type} (c : dispatchE X) : X -> option JsVal :=
  match c in dispatchE X return X -> option JsVal with
  | ClientContext_create _ _ _ _ _ _ _
  | ClientContext_upsert _ _ _ _ _ _ _
  | ClientContext_queryFeed _ _ _ _ _ _ _
  | DocumentClient_createDatabase _ _ _ =>
      fun p => match p with
               | Rejected e => Some e
               | Fulfilled _ => None
               end
  | DocumentClient_queryDatabases _ _ _
  | DocumentClient_readDatabases _ _ => fun _ => None
  end.

Definition failure {X : Type} (c : dispatchE X) (r : CallResult X) : option JsVal :=
  match r with
  | Threw e => Some e
  | Returned x => rejection c x
  end.

(** An awaiting method surfaces failures: at every dispatch call, a failure
    of the dispatch layer ends the method there and then, with that very
    value thrown. *)
Fixpoint surfaces_failures {S R : Type} (a : Act S R) : Prop :=
  match a with
  | Done _ _ | Fail _ _ => True
  | Call s c k =>
      forall r, match failure c r with
                | Some e => k r = Fail s e
                | None => surfaces_failures (k r)
                end
  end.

(** What a forwarding method ends with, given the dispatch layer's answer. *)
Definition settle {S X : Type} (s : S) (r : CallResult X) : Outcome S X :=
  match r with
  | Returned x => Returns s x
  | Threw e => Throws s e
  end.

(** A forwarding method: one dispatch call [c] in the store it was entered
    with, whose answer is the method's own, value or exception alike. *)
Definition hands_over {S X : Type} (c : dispatchE X) (s : S) (a : Act S X) : Prop :=
  exists k, a = Call s c k
            /\ forall r, k r = match r with
                               | Returned x => Done s x
                               | Threw e => Fail s e
                               end.

(** The method hands over to the dispatch layer and waits for its answer. *)
Definition awaits_dispatch {S R : Type} (a : Act S R) : Prop :=
  match a with
  | Call _ _ _ => True
  | _ => False
  end.

(** Under some dispatch layer that answers the call [c] with a value, the
    method does not end with that value in the store it was entered with. *)
Definition reshapes_response {T X : Type} (c : dispatchE X) (m : M T X) (s : Store T) : Prop :=
  exists (h : Handler (Store T)) (x : X),
    h X c s = Returned x /\ (run h (m s)).2 ≠ Returns s x.

(** [after_dispatch], as an outcome. *)
Definition respond (s : Store UserDefinedFunctions.t)
    (r : CallResult (Promise Response))
  : Outcome (Store UserDefinedFunctions.t) UserDefinedFunctionResponse.t :=
  match r with
  | Returned (Fulfilled response) =>
      let handle := new_UserDefinedFunction
                      (UserDefinedFunctions.container (self s))
                      (prop (result response) "id")
                      (UserDefinedFunctions.clientContext (self s)) in
      Returns s {| UserDefinedFunctionResponse.body := result response;
                   UserDefinedFunctionResponse.headers := headers response;
                   UserDefinedFunctionResponse.ref := handle;
                   UserDefinedFunctionResponse.userDefinedFunction := handle;
                   UserDefinedFunctionResponse.udf := handle |}
  | Returned (Rejected e) => Throws s e
  | Threw e => Throws s e
  end.

(** The store a run ends in. *)
Definition outcome_store {S R : Type} (o : Outcome S R) : S :=
  match o with
  | Returns s _ | Throws s _ => s
  end.

(** A definition body that is text or absent. *)
Definition body_is_text (d : JsObject) : Prop :=
  prop d "body" = VUndefined \/ exists str, prop d "body" = VString str.

(** ** A concrete setting *)

(** Modelled from the spec: [Helper] ("../../common") is not among the
    reviewed files.  The specification says that a definition with a
    required field missing (id or body) is rejected with a generic error
    object, and that the resource path is the container path followed by the
    segment; it says nothing about [getIdFromLink], which is taken to return
    the link as it is. *)
Definition SpecHelper : Helper :=
  {| isResourceValid := fun resource err =>
       (match resource !! "id", resource !! "body" with
        | Some _, Some _ => true
        | _, _ => false
        end, err);
     getPathFromLink := fun link type =>
       match type with
       | Some segment => link +:+ "/" +:+ segment
       | None => link
       end;
     getIdFromLink := fun link => link |}.

Module Sample.

Definition clientContext : ClientContext := {| clientContext_ref := 1 |}.
Definition cosmosClient : CosmosClient :=
  {| documentClient := {| documentClient_ref := 2 |} |}.
Definition container : Container :=
  {| container_database := new_Database cosmosClient "db";
     container_id := "coll";
     url := "dbs/db/colls/coll" |}.

Definition udfs : UserDefinedFunctions.t :=
  UserDefinedFunctions.constructor container clientContext.
Definition databases : Databases.t := Databases.constructor cosmosClient.

(** [{ body: function () { return 1; } }]: no id. *)
Definition anonymous : JsObject :=
  {[ "body" := VFunction "function () { return 1; }" ]}.

(** [{ id: "tax", body: function (x) { return x * 0.2; } }] *)
Definition tax : JsObject :=
  <["id" := VString "tax"]>
    {[ "body" := VFunction "function (x) { return x * 0.2; }" ]}.

(** A heap with [anonymous] at reference 1 and [tax] at reference 2. *)
Definition objects : Heap := <[1%positive := anonymous]> {[ 2%positive := tax ]}.

Definition udfs_store : Store UserDefinedFunctions.t := mkStore udfs objects.
Definition databases_store : Store Databases.t := mkStore databases objects.

(** What the service answers when it stores [tax]. *)
Definition stored : Response :=
  {| result := <["_rid" := VString "Sl8fALN4sw4="]> (normalise tax);
     headers := {[ "x-ms-request-charge" := VString "6.86" ]} |}.

End Sample.

Module SampleService.

(** A dispatch layer that stores whatever it is given and answers with
    [Sample.stored]. *)
Definition accepting {S : Type} : Handler S :=
  fun X c _ =>
    match c in dispatchE X return CallResult X with
    | ClientContext_create _ _ _ _ _ _ _ => Returned (Fulfilled Sample.stored)
    | ClientContext_upsert _ _ _ _ _ _ _ => Returned (Fulfilled Sample.stored)
    | ClientContext_queryFeed _ _ _ _ _ _ _ => Returned (Fulfilled Sample.stored)
    | DocumentClient_queryDatabases _ _ _ => Returned {| iterator_ref := 7 |}
    | DocumentClient_createDatabase _ _ _ => Returned (Fulfilled Sample.stored)
    | DocumentClient_readDatabases _ _ => Returned {| iterator_ref := 8 |}
    end.

(** A dispatch layer whose promises all reject with [reason]. *)
Definition rejecting {S : Type} (reason : JsVal) : Handler S :=
  fun X c _ =>
    match c in dispatchE X return CallResult X with
    | ClientContext_create _ _ _ _ _ _ _ => Returned (Rejected reason)
    | ClientContext_upsert _ _ _ _ _ _ _ => Returned (Rejected reason)
    | ClientContext_queryFeed _ _ _ _ _ _ _ => Returned (Rejected reason)
    | DocumentClient_queryDatabases _ _ _ => Threw reason
    | DocumentClient_createDatabase _ _ _ => Returned (Rejected reason)
    | DocumentClient_readDatabases _ _ => Threw reason
    end.

(** A dispatch layer whose promises are all fulfilled with [response]. *)
Definition answering {S : Type} (response : Response) : Handler S :=
  fun X c _ =>
    match c in dispatchE X return CallResult X with
    | ClientContext_create _ _ _ _ _ _ _ => Returned (Fulfilled response)
    | ClientContext_upsert _ _ _ _ _ _ _ => Returned (Fulfilled response)
    | ClientContext_queryFeed _ _ _ _ _ _ _ => Returned (Fulfilled response)
    | DocumentClient_queryDatabases _ _ _ => Returned {| iterator_ref := 7 |}
    | DocumentClient_createDatabase _ _ _ => Returned (Fulfilled response)
    | DocumentClient_readDatabases _ _ => Returned {| iterator_ref := 8 |}
    end.

End SampleService.

(** * Facts *)

(** ** Heap facts *)

Lemma obj_lookup (h : Heap) (l : loc) (o : JsObject) :
  h !! l = Some o -> obj h l = o.
Proof. intros Hl. unfold obj. by rewrite Hl. Qed.

Lemma obj_insert_eq (h : Heap) (l : loc) (o : JsObject) :
  obj (<[l := o]> h) l = o.
Proof. unfold obj. by rewrite lookup_insert_eq. Qed.

Lemma fresh_not_live (h : Heap) (l : loc) :
  is_Some (h !! l) -> fresh (dom h) ≠ l.
Proof.
  intros Hl Heq. apply (is_fresh (dom h)).
  rewrite Heq. by apply elem_of_dom.
Qed.

Lemma obj_fresh_other (h : Heap) (l : loc) (o : JsObject) :
  is_Some (h !! l) -> obj (<[fresh (dom h) := o]> h) l = obj h l.
Proof.
  intros Hl. unfold obj. rewrite lookup_insert_ne; [done|].
  by apply fresh_not_live.
Qed.

Lemma dom_overwrite (h : Heap) (l : loc) (o : JsObject) :
  is_Some (h !! l) -> dom (<[l := o]> h) = dom h.
Proof.
  intros Hl. rewrite dom_insert_L.
  apply elem_of_dom in Hl. apply (anti_symm (⊆)).
  - apply union_least; [by apply singleton_subseteq_l | done].
  - apply union_subseteq_r.
Qed.

Lemma normalise_truthy (d : JsObject) :
  truthy (prop d "body") = true ->
  normalise d = <["body" := VString (toString (prop d "body"))]> d.
Proof. intros Ht. unfold normalise. by rewrite Ht. Qed.

Lemma normalise_falsy (d : JsObject) :
  truthy (prop d "body") = false -> normalise d = d.
Proof. intros Ht. unfold normalise. by rewrite Ht. Qed.

(** The heap after the normalising assignment, whichever branch ran. *)
Lemma normalised_heap (h : Heap) (b : loc) (d : JsObject) :
  h !! b = Some d ->
  (if truthy (prop d "body")
   then <[b := <["body" := VString (toString (prop d "body"))]> d]> h
   else h) = <[b := normalise d]> h.
Proof.
  intros Hb. destruct (truthy (prop d "body")) eqn:Ht.
  - by rewrite normalise_truthy.
  - rewrite normalise_falsy by done. by rewrite insert_id.
Qed.

(** ** Running: general facts *)

Lemma run_call {S X : Type} (h : Handler S) (c : dispatchE X) (s : S) :
  run h (Call s c (fun r => match r with
                            | Returned x => Done s x
                            | Threw e => Fail s e
                            end))
  = ([existT X c],
     match h X c s with
     | Returned x => Returns s x
     | Threw e => Throws s e
     end).
Proof. cbn. by destruct (h X c s). Qed.

Lemma run_Call {S R X : Type} (h : Handler S) (s : S) (c : dispatchE X)
    (k : CallResult X -> Act S R) :
  run h (Call s c k)
  = (existT X c :: (run h (k (h X c s))).1, (run h (k (h X c s))).2).
Proof. cbn. by destruct (run h (k (h X c s))). Qed.

Lemma run_at_most {S R : Type} (h : Handler S) (n : nat) (a : Act S R) :
  at_most_calls n a -> (List.length (run h a).1 <= n)%nat.
Proof.
  revert n. induction a as [s r|s e|X s c k IH]; intros n Hn; cbn.
  - lia.
  - lia.
  - destruct n as [|n]; [done|].
    specialize (IH (h X c s) n (Hn _)).
    destruct (run h (k (h X c s))) as [log out]. cbn in *. lia.
Qed.

Lemma run_no_dispatch {S R : Type} (h : Handler S) (a : Act S R) :
  no_dispatch a -> (run h a).1 = [].
Proof. destruct a; cbn; [done|done|tauto]. Qed.

Lemma hands_over_call {T X : Type} (c : dispatchE X) (s : Store T) :
  hands_over c s (call c s).
Proof. eexists. split; [reflexivity|]. by intros []. Qed.

Lemma hands_over_run {S X : Type} (h : Handler S) (c : dispatchE X) (s : S) (a : Act S X) :
  hands_over c s a -> run h a = ([existT X c], settle s (h X c s)).
Proof.
  intros (k & -> & Hk). rewrite run_Call, Hk. by destruct (h X c s).
Qed.

Lemma after_dispatch_run (h : Handler (Store UserDefinedFunctions.t))
    (s : Store UserDefinedFunctions.t) (r : CallResult (Promise Response)) :
  run h (after_dispatch s r) = ([], respond s r).
Proof. by destruct r as [[?|?]|?]. Qed.

Lemma after_dispatch_surfaces (s : Store UserDefinedFunctions.t)
    (r : CallResult (Promise Response)) :
  surfaces_failures (after_dispatch s r).
Proof. by destruct r as [[?|?]|?]. Qed.

Lemma after_dispatch_no_dispatch (s : Store UserDefinedFunctions.t)
    (r : CallResult (Promise Response)) :
  no_dispatch (after_dispatch s r).
Proof. by destruct r as [[?|?]|?]. Qed.

Lemma after_dispatch_keeps_self (s : Store UserDefinedFunctions.t)
    (r : CallResult (Promise Response)) :
  keeps_self (self s) (after_dispatch s r).
Proof. by destruct r as [[?|?]|?]. Qed.

Lemma no_dispatch_at_most {S R : Type} (n : nat) (a : Act S R) :
  no_dispatch a -> at_most_calls n a.
Proof. destruct a; cbn; intros Hn; [done | done | destruct Hn]. Qed.

Lemma hands_over_at_most {S X : Type} (c : dispatchE X) (s : S) (a : Act S X) :
  hands_over c s a -> at_most_calls 1 a.
Proof. intros (k & -> & Hk) r. rewrite Hk. by destruct r. Qed.

Lemma hands_over_keeps_self {T X : Type} (c : dispatchE X) (s : Store T)
    (a : Act (Store T) X) :
  hands_over c s a -> keeps_self (self s) a.
Proof. intros (k & -> & Hk). split; [done|]. intros r. rewrite Hk. by destruct r. Qed.

(** ** Tactics for method bodies *)

Ltac unfold_method :=
  unfold bind, get_prop, set_prop, new_object, Helper_isResourceValid,
    get_self, call, await, ret, throw; cbn.

(** Runs the normalising assignment and the validity check of a method body
    whose definition [d] is live at [b]. *)
Ltac run_check Hb :=
  let Hn := fresh "Hn" in
  let Hdom := fresh "Hdom" in
  let Ht := fresh "Ht" in
  let Hv := fresh "Hv" in
  unfold_method; unfold checked_store;
  rewrite (obj_lookup _ _ _ Hb);
  pose proof (normalised_heap _ _ _ Hb) as Hn;
  match type of Hb with
  | heap ?s !! ?b = Some ?d =>
      assert (Hdom : dom (<[b := normalise d]> (heap s)) = dom (heap s))
        by (apply dom_overwrite; eauto);
      destruct (truthy (prop d "body")) eqn:Ht; cbn;
      rewrite ?(obj_lookup _ _ _ Hb);
      [ rewrite Hn;
        rewrite obj_fresh_other by (rewrite lookup_insert_eq; eauto);
        rewrite Hdom, !obj_insert_eq;
        destruct (isResourceValid (normalise d) ∅) as [[] ?] eqn:Hv
      | rewrite <- Hn;
        rewrite obj_fresh_other, (obj_lookup _ _ _ Hb) by eauto;
        rewrite !obj_insert_eq, (normalise_falsy d Ht);
        destruct (isResourceValid d ∅) as [[] ?] eqn:Hv ];
      cbn; rewrite insert_insert_eq
  end.

Ltac finish_check :=
  first
    [ reflexivity
    | eexists; split; [reflexivity | intros [[?|?]|?]; reflexivity] ].

Ltac run_any :=
  unfold_method;
  destruct (truthy _); cbn;
  destruct (isResourceValid _ _) as [[] ?]; cbn.

(** ** [create] and [upsert] up to the dispatch call *)

Section UserDefinedFunctionsFacts.
Context `{Helper}.
Import UserDefinedFunctions.

Lemma create_checked (s : Store t) (b : loc) (o : option RequestOptions) (d : JsObject) :
  heap s !! b = Some d ->
  if fst (isResourceValid (normalise d) ∅)
  then exists k,
      create b o s =
        Call (checked_store s b d)
          (ClientContext_create (clientContext (self s)) b
             (getPathFromLink (url (container (self s))) (Some "udfs")) "udfs"
             (getIdFromLink (url (container (self s)))) VUndefined o) k
      /\ forall r, k r = after_dispatch (checked_store s b d) r
  else create b o s = Fail (checked_store s b d) (VRef (fresh (dom (heap s)))).
Proof. intros Hb. unfold create. run_check Hb; finish_check. Qed.

Lemma upsert_checked (s : Store t) (b : loc) (o : option RequestOptions) (d : JsObject) :
  heap s !! b = Some d ->
  if fst (isResourceValid (normalise d) ∅)
  then exists k,
      upsert b o s =
        Call (checked_store s b d)
          (ClientContext_upsert (clientContext (self s)) b
             (getPathFromLink (url (container (self s))) (Some "udfs")) "udfs"
             (getIdFromLink (url (container (self s)))) VUndefined o) k
      /\ forall r, k r = after_dispatch (checked_store s b d) r
  else upsert b o s = Fail (checked_store s b d) (VRef (fresh (dom (heap s)))).
Proof. intros Hb. unfold upsert. run_check Hb; finish_check. Qed.

Lemma checked_store_definition (s : Store t) (b : loc) (d : JsObject) :
  heap s !! b = Some d ->
  heap (checked_store s b d) !! b = Some (normalise d).
Proof.
  intros Hb. unfold checked_store. cbn.
  rewrite lookup_insert_ne by (apply fresh_not_live; eauto).
  by rewrite lookup_insert_eq.
Qed.

Lemma checked_store_error (s : Store t) (b : loc) (d : JsObject) :
  heap (checked_store s b d) !! fresh (dom (heap s))
  = Some (snd (isResourceValid (normalise d) ∅)).
Proof. unfold checked_store. cbn. by rewrite lookup_insert_eq. Qed.

End UserDefinedFunctionsFacts.

Section UserDefinedFunctionsShapes.
Context `{Helper}.
Import UserDefinedFunctions.

Lemma create_shape (s : Store t) (b : loc) (o : option RequestOptions) :
  exists s', self s' = self s
    /\ ((exists e, create b o s = Fail s' e)
        \/ exists k,
            create b o s =
              Call s' (ClientContext_create (clientContext (self s)) b
                         (getPathFromLink (url (container (self s))) (Some "udfs"))
                         "udfs" (getIdFromLink (url (container (self s))))
                         VUndefined o) k
            /\ forall r, k r = after_dispatch s' r).
Proof.
  unfold create. run_any; eexists; (split; [|first
    [ left; eexists; reflexivity
    | right; eexists; split; [reflexivity | intros [[?|?]|?]; reflexivity] ]]);
    reflexivity.
Qed.

Lemma upsert_shape (s : Store t) (b : loc) (o : option RequestOptions) :
  exists s', self s' = self s
    /\ ((exists e, upsert b o s = Fail s' e)
        \/ exists k,
            upsert b o s =
              Call s' (ClientContext_upsert (clientContext (self s)) b
                         (getPathFromLink (url (container (self s))) (Some "udfs"))
                         "udfs" (getIdFromLink (url (container (self s))))
                         VUndefined o) k
            /\ forall r, k r = after_dispatch s' r).
Proof.
  unfold upsert. run_any; eexists; (split; [|first
    [ left; eexists; reflexivity
    | right; eexists; split; [reflexivity | intros [[?|?]|?]; reflexivity] ]]);
    reflexivity.
Qed.

Lemma query_returns (s : Store t) (q : option SqlQuerySpec) (fo : option FeedOptions) :
  exists it,
    query q fo s = Done s it
    /\ iterator_clientContext it = clientContext (self s)
    /\ iterator_query it = q
    /\ iterator_options it = fo
    /\ forall inner s2,
        fetchFunctions it inner s2
        = call (ClientContext_queryFeed (clientContext (self s2))
                  (getPathFromLink (url (container (self s))) (Some "udfs")) "udfs"
                  (getIdFromLink (url (container (self s))))
                  (fun result => prop result "UserDefinedFunctions") q inner) s2.
Proof. unfold query. unfold_method. eexists. repeat split. Qed.

End UserDefinedFunctionsShapes.

Section DatabasesFacts.
Variables (sd : Store Databases.t) (hd : Handler (Store Databases.t)).

Lemma Databases_query_run (q : option SqlQuerySpec) (fo : option FeedOptions) :
  let c := DocumentClient_queryDatabases
             (documentClient (Databases.client (self sd))) q fo in
  run hd (Databases.query q fo sd) = ([existT _ c], settle sd (hd _ c sd)).
Proof. apply hands_over_run, hands_over_call. Qed.

Lemma Databases_create_run (b : loc) (options : option RequestOptions) :
  let c := DocumentClient_createDatabase
             (documentClient (Databases.client (self sd))) b options in
  run hd (Databases.create b options sd) = ([existT _ c], settle sd (hd _ c sd)).
Proof. apply hands_over_run, hands_over_call. Qed.

Lemma Databases_read_run (fo : option FeedOptions) :
  let c := DocumentClient_readDatabases
             (documentClient (Databases.client (self sd))) fo in
  run hd (Databases.read fo sd) = ([existT _ c], settle sd (hd _ c sd)).
Proof. apply hands_over_run, hands_over_call. Qed.

End DatabasesFacts.

(** ** The sample setting, evaluated *)

Example sample_anonymous_invalid :
  @isResourceValid SpecHelper (normalise Sample.anonymous) ∅ = (false, ∅).
Proof. reflexivity. Qed.

Example sample_tax_valid :
  @isResourceValid SpecHelper (normalise Sample.tax) ∅ = (true, ∅).
Proof. reflexivity. Qed.

Example sample_fresh : fresh (dom Sample.objects) = 3%positive.
Proof. reflexivity. Qed.

Example sample_live : Sample.objects !! 2%positive = Some Sample.tax.
Proof. reflexivity. Qed.

(** * The claims *)

Section Claims.
Context `{Helper}.
Import UserDefinedFunctions.

(** C1.  A definition that fails [Helper.isResourceValid] (as the method
    sees it, that is after the body has been put in string form) makes
    [create] and [upsert] throw the error object they built themselves: a
    reference that did not exist before the call, holding what the
    validator wrote into the empty literal.  The tree is a bare [Fail], so
    no dispatch call is made, whatever the dispatch layer is. *)
Theorem invalid_definition_rejected_before_dispatch
    (s : Store t) (b : loc) (d : JsObject) (options : option RequestOptions) :
  heap s !! b = Some d ->
  fst (isResourceValid (normalise d) ∅) = false ->
  let e := fresh (dom (heap s)) in
  let s' := checked_store s b d in
  (e ∉ dom (heap s))
  /\ heap s' !! e = Some (snd (isResourceValid (normalise d) ∅))
  /\ create b options s = Fail s' (VRef e)
  /\ upsert b options s = Fail s' (VRef e)
  /\ forall h : Handler (Store t),
      run h (create b options s) = ([], Throws s' (VRef e))
      /\ run h (upsert b options s) = ([], Throws s' (VRef e)).
Proof.
  intros Hb Hv e s'.
  pose proof (create_checked s b options d Hb) as Hc.
  pose proof (upsert_checked s b options d Hb) as Hu.
  rewrite Hv in Hc, Hu.
  split; [apply is_fresh|].
  split; [apply checked_store_error|].
  split; [exact Hc|]. split; [exact Hu|].
  intros h. rewrite Hc, Hu. done.
Qed.

(** C2.  On a valid definition, when the dispatch layer's promise is
    fulfilled with [response], [create] and [upsert] return the record whose
    body and headers are the response's and whose [ref],
    [userDefinedFunction] and [udf] are one handle made of the parent
    container, [response.result.id] and the client context; the body's id
    is therefore the id the service assigned. *)
Theorem valid_definition_response
    (s : Store t) (b : loc) (d : JsObject) (options : option RequestOptions)
    (h : Handler (Store t)) (response : Response) :
  heap s !! b = Some d ->
  fst (isResourceValid (normalise d) ∅) = true ->
  let path := getPathFromLink (url (container (self s))) (Some "udfs") in
  let id := getIdFromLink (url (container (self s))) in
  let s' := checked_store s b d in
  let creating := ClientContext_create (clientContext (self s)) b path "udfs" id
                    VUndefined options in
  let upserting := ClientContext_upsert (clientContext (self s)) b path "udfs" id
                     VUndefined options in
  let handle := new_UserDefinedFunction (container (self s))
                  (prop (result response) "id") (clientContext (self s)) in
  let r := {| UserDefinedFunctionResponse.body := result response;
              UserDefinedFunctionResponse.headers := headers response;
              UserDefinedFunctionResponse.ref := handle;
              UserDefinedFunctionResponse.userDefinedFunction := handle;
              UserDefinedFunctionResponse.udf := handle |} in
  (h _ creating s' = Returned (Fulfilled response) ->
   run h (create b options s) = ([existT _ creating], Returns s' r))
  /\ (h _ upserting s' = Returned (Fulfilled response) ->
      run h (upsert b options s) = ([existT _ upserting], Returns s' r))
  /\ prop (UserDefinedFunctionResponse.body r) "id" = prop (result response) "id"
  /\ udf_id (UserDefinedFunctionResponse.ref r) = prop (result response) "id".
Proof.
  intros Hb Hv path id s' creating upserting handle r.
  pose proof (create_checked s b options d Hb) as Hc.
  pose proof (upsert_checked s b options d Hb) as Hu.
  rewrite Hv in Hc, Hu.
  destruct Hc as (kc & Hc & Hkc). destruct Hu as (ku & Hu & Hku).
  repeat split.
  - intros Hh. unfold creating, s', path, id in Hh.
    by rewrite Hc, run_Call, Hh, Hkc.
  - intros Hh. unfold upserting, s', path, id in Hh.
    by rewrite Hu, run_Call, Hh, Hku.
Qed.

(** C3.  No method stands between a dispatch failure and the caller.
    [create] and [upsert] end, at the call, with the very value the
    dispatch layer threw or rejected with, and make no further call; the
    [Databases] methods and the fetch function of the iterator [query]
    builds end with the answer of their one call as it is: a thrown value
    rethrown, a returned promise (rejected or not) returned. *)
Theorem dispatch_failures_propagate_unchanged
    (s s2 : Store t) (sd : Store Databases.t) (b : loc)
    (options : option RequestOptions) (q : option SqlQuerySpec)
    (fo inner : option FeedOptions) :
  surfaces_failures (create b options s)
  /\ surfaces_failures (upsert b options s)
  /\ hands_over
       (DocumentClient_queryDatabases (documentClient (Databases.client (self sd))) q fo)
       sd (Databases.query q fo sd)
  /\ hands_over
       (DocumentClient_createDatabase (documentClient (Databases.client (self sd))) b options)
       sd (Databases.create b options sd)
  /\ hands_over
       (DocumentClient_readDatabases (documentClient (Databases.client (self sd))) fo)
       sd (Databases.read fo sd)
  /\ match query q fo s with
     | Done _ it =>
         hands_over
           (ClientContext_queryFeed (clientContext (self s2))
              (getPathFromLink (url (container (self s))) (Some "udfs")) "udfs"
              (getIdFromLink (url (container (self s))))
              (fun result => prop result "UserDefinedFunctions") q inner)
           s2 (fetchFunctions it inner s2)
     | _ => False
     end.
Proof.
  destruct (query_returns s q fo) as (it & -> & _ & _ & _ & Hf).
  repeat split; try apply hands_over_call.
  - destruct (create_shape s b options) as (s' & _ & [(e & ->) | (k & -> & Hk)]);
      [done|].
    intros r. rewrite Hk. by destruct r as [[?|?]|?].
  - destruct (upsert_shape s b options) as (s' & _ & [(e & ->) | (k & -> & Hk)]);
      [done|].
    intros r. rewrite Hk. by destruct r as [[?|?]|?].
  - rewrite Hf. apply hands_over_call.
Qed.

(** C4.  Whenever [create] or [upsert] reaches the dispatch layer (that
    is, on a valid definition) the one request names the path
    [Helper.getPathFromLink(this.container.url, "udfs")] and the item kind
    "udfs"; so does every request made by the fetch function of the
    iterator that [query] returns. *)
Theorem requests_name_udfs_path
    (s s2 : Store t) (b : loc) (d : JsObject) (options : option RequestOptions)
    (q : option SqlQuerySpec) (fo inner : option FeedOptions)
    (h : Handler (Store t)) :
  heap s !! b = Some d ->
  let path := getPathFromLink (url (container (self s))) (Some "udfs") in
  let id := getIdFromLink (url (container (self s))) in
  let valid := fst (isResourceValid (normalise d) ∅) in
  (run h (create b options s)).1
  = (if valid
     then [existT _ (ClientContext_create (clientContext (self s)) b path "udfs" id
                       VUndefined options)]
     else [])
  /\ (run h (upsert b options s)).1
     = (if valid
        then [existT _ (ClientContext_upsert (clientContext (self s)) b path "udfs" id
                          VUndefined options)]
        else [])
  /\ exists it,
      query q fo s = Done s it
      /\ (run h (fetchFunctions it inner s2)).1
         = [existT _ (ClientContext_queryFeed (clientContext (self s2)) path "udfs" id
                        (fun result => prop result "UserDefinedFunctions") q inner)].
Proof.
  intros Hb path id valid.
  pose proof (create_checked s b options d Hb) as Hc.
  pose proof (upsert_checked s b options d Hb) as Hu.
  destruct (query_returns s q fo) as (it & Hq & _ & _ & _ & Hf).
  fold valid in Hc, Hu. destruct valid.
  - destruct Hc as (kc & -> & Hkc). destruct Hu as (ku & -> & Hku).
    rewrite !run_Call, Hkc, Hku, !after_dispatch_run.
    repeat split. exists it. split; [done|].
    by rewrite Hf, (hands_over_run _ _ _ _ (hands_over_call _ _)).
  - rewrite Hc, Hu. repeat split. exists it. split; [done|].
    by rewrite Hf, (hands_over_run _ _ _ _ (hands_over_call _ _)).
Qed.

(** C5, as amended.  [create] and [upsert] reshape the request (the
    definition is normalised in place), validate it, make one dispatch call
    on a valid definition and reshape a fulfilled answer into the response
    record.  [Databases.query], [Databases.create] and [Databases.read] do
    none of that: whatever the arguments, they pass them on unchanged in
    one call to [documentClient] and end with that call's answer
    unchanged. *)
Theorem facade_methods_by_kind
    (s : Store t) (sd : Store Databases.t) (b bd : loc) (d : JsObject)
    (options : option RequestOptions) (q : option SqlQuerySpec)
    (fo : option FeedOptions)
    (h : Handler (Store t)) (hd : Handler (Store Databases.t)) :
  heap s !! b = Some d ->
  let path := getPathFromLink (url (container (self s))) (Some "udfs") in
  let id := getIdFromLink (url (container (self s))) in
  let s' := checked_store s b d in
  let creating := ClientContext_create (clientContext (self s)) b path "udfs" id
                    VUndefined options in
  let upserting := ClientContext_upsert (clientContext (self s)) b path "udfs" id
                     VUndefined options in
  let dc := documentClient (Databases.client (self sd)) in
  heap s' !! b = Some (normalise d)
  /\ run h (create b options s)
     = (if fst (isResourceValid (normalise d) ∅)
        then ([existT _ creating], respond s' (h _ creating s'))
        else ([], Throws s' (VRef (fresh (dom (heap s))))))
  /\ run h (upsert b options s)
     = (if fst (isResourceValid (normalise d) ∅)
        then ([existT _ upserting], respond s' (h _ upserting s'))
        else ([], Throws s' (VRef (fresh (dom (heap s))))))
  /\ run hd (Databases.query q fo sd)
     = ([existT _ (DocumentClient_queryDatabases dc q fo)],
        settle sd (hd _ (DocumentClient_queryDatabases dc q fo) sd))
  /\ run hd (Databases.create bd options sd)
     = ([existT _ (DocumentClient_createDatabase dc bd options)],
        settle sd (hd _ (DocumentClient_createDatabase dc bd options) sd))
  /\ run hd (Databases.read fo sd)
     = ([existT _ (DocumentClient_readDatabases dc fo)],
        settle sd (hd _ (DocumentClient_readDatabases dc fo) sd)).
Proof.
  intros Hb path id s' creating upserting dc.
  pose proof (create_checked s b options d Hb) as Hc.
  pose proof (upsert_checked s b options d Hb) as Hu.
  split; [by apply checked_store_definition|].
  split; [|split].
  - destruct (isResourceValid (normalise d) ∅).1.
    + destruct Hc as (k & -> & Hk).
      by rewrite run_Call, Hk, after_dispatch_run.
    + by rewrite Hc.
  - destruct (isResourceValid (normalise d) ∅).1.
    + destruct Hu as (k & -> & Hk).
      by rewrite run_Call, Hk, after_dispatch_run.
    + by rewrite Hu.
  - by rewrite Databases_query_run, Databases_create_run, Databases_read_run.
Qed.

(** C6, as amended.  No operation makes more than one dispatch call per
    invocation.  [query], [readAll] and [getDatabase] make none: they
    return at once, and the [queryFeed] call of [query] is left to the
    iterator's fetch function.  [Databases.query], [Databases.create] and
    [Databases.read] make exactly one. *)
Theorem operations_dispatch_at_most_once
    (s : Store t) (sd : Store Databases.t) (b : loc)
    (options : option RequestOptions) (q : option SqlQuerySpec)
    (fo : option FeedOptions) (id : string)
    (hd : Handler (Store Databases.t)) :
  (at_most_calls 1 (query q fo s)
   /\ at_most_calls 1 (readAll fo s)
   /\ at_most_calls 1 (create b options s)
   /\ at_most_calls 1 (upsert b options s)
   /\ at_most_calls 1 (Databases.query q fo sd)
   /\ at_most_calls 1 (Databases.create b options sd)
   /\ at_most_calls 1 (Databases.read fo sd)
   /\ at_most_calls 1 (Databases.getDatabase id sd))
  /\ (no_dispatch (query q fo s)
      /\ no_dispatch (readAll fo s)
      /\ no_dispatch (Databases.getDatabase id sd))
  /\ (List.length (run hd (Databases.query q fo sd)).1 = 1
      /\ List.length (run hd (Databases.create b options sd)).1 = 1
      /\ List.length (run hd (Databases.read fo sd)).1 = 1)%nat.
Proof.
  split; [|split].
  - repeat split; try exact (hands_over_at_most _ _ _ (hands_over_call _ _)).
    + destruct (create_shape s b options) as (s' & _ & [(e & ->) | (k & -> & Hk)]);
        [done|].
      intros r. rewrite Hk. apply no_dispatch_at_most, after_dispatch_no_dispatch.
    + destruct (upsert_shape s b options) as (s' & _ & [(e & ->) | (k & -> & Hk)]);
        [done|].
      intros r. rewrite Hk. apply no_dispatch_at_most, after_dispatch_no_dispatch.
  - repeat split.
  - by rewrite Databases_query_run, Databases_create_run, Databases_read_run.
Qed.

(** C7.  No method writes to its receiver: the fields of
    [UserDefinedFunctions] (container, clientContext, client) and of
    [Databases] (client) are, at every point of every method and of the
    fetch function [query] builds, what they were on entry. *)
Theorem facades_keep_their_fields
    (s s2 : Store t) (sd : Store Databases.t) (b : loc)
    (options : option RequestOptions) (q : option SqlQuerySpec)
    (fo inner : option FeedOptions) (id : string) :
  keeps_self (self s) (query q fo s)
  /\ keeps_self (self s) (readAll fo s)
  /\ keeps_self (self s) (create b options s)
  /\ keeps_self (self s) (upsert b options s)
  /\ match query q fo s with
     | Done _ it => keeps_self (self s2) (fetchFunctions it inner s2)
     | _ => False
     end
  /\ keeps_self (self sd) (Databases.getDatabase id sd)
  /\ keeps_self (self sd) (Databases.query q fo sd)
  /\ keeps_self (self sd) (Databases.create b options sd)
  /\ keeps_self (self sd) (Databases.read fo sd).
Proof.
  repeat split.
  - destruct (create_shape s b options) as (s' & Hs & [(e & ->) | (k & -> & Hk)]);
      [done|].
    split; [done|]. intros r. rewrite Hk, <- Hs. apply after_dispatch_keeps_self.
  - destruct (upsert_shape s b options) as (s' & Hs & [(e & ->) | (k & -> & Hk)]);
      [done|].
    split; [done|]. intros r. rewrite Hk, <- Hs. apply after_dispatch_keeps_self.
  - by intros [].
  - by intros [].
  - by intros [].
  - by intros [].
Qed.

(** C8.  [readAll options] is [query undefined options]: the iterator
    built from the client context, no query specification and [options],
    whose fetch function asks [queryFeed] for the same path, the kind
    "udfs", the same container id, the [UserDefinedFunctions] selector and
    no query specification. *)
Theorem readAll_is_query_undefined (options inner : option FeedOptions) (s s2 : Store t) :
  readAll options = query None options
  /\ exists it,
      readAll options s = Done s it
      /\ query None options s = Done s it
      /\ iterator_clientContext it = clientContext (self s)
      /\ iterator_query it = None
      /\ iterator_options it = options
      /\ fetchFunctions it inner s2
         = call (ClientContext_queryFeed (clientContext (self s2))
                   (getPathFromLink (url (container (self s))) (Some "udfs")) "udfs"
                   (getIdFromLink (url (container (self s))))
                   (fun result => prop result "UserDefinedFunctions") None inner) s2.
Proof.
  split; [reflexivity|].
  destruct (query_returns s None options) as (it & Hq & Hctx & Hnone & Hopt & Hf).
  exists it. unfold readAll. by rewrite Hf.
Qed.

(** C9.  A truthy [body.body] is overwritten with its string form in the
    caller's own object, and the validator is run on the object so
    changed: the change is there at the point where the method throws or
    hands over to the dispatch layer, and in particular when the changed
    definition is rejected. *)
Theorem definition_mutated_in_place
    (s : Store t) (b : loc) (d : JsObject) (options : option RequestOptions) :
  heap s !! b = Some d ->
  truthy (prop d "body") = true ->
  let d' := <["body" := VString (toString (prop d "body"))]> d in
  heap (first_store (create b options s)) !! b = Some d'
  /\ heap (first_store (upsert b options s)) !! b = Some d'
  /\ (fst (isResourceValid d' ∅) = false ->
      exists s' e,
        create b options s = Fail s' e
        /\ upsert b options s = Fail s' e
        /\ heap s' !! b = Some d').
Proof.
  intros Hb Ht d'.
  pose proof (create_checked s b options d Hb) as Hc.
  pose proof (upsert_checked s b options d Hb) as Hu.
  pose proof (checked_store_definition s b d Hb) as Hd.
  rewrite (normalise_truthy d Ht) in Hc, Hu, Hd. fold d' in Hc, Hu, Hd.
  split; [|split].
  - destruct (isResourceValid d' ∅).1.
    + destruct Hc as (k & -> & _). exact Hd.
    + rewrite Hc. exact Hd.
  - destruct (isResourceValid d' ∅).1.
    + destruct Hu as (k & -> & _). exact Hd.
    + rewrite Hu. exact Hd.
  - intros Hv. rewrite Hv in Hc, Hu. eauto.
Qed.

(** C10.  [getDatabase id] returns, for any string at all, the handle made
    of the shared client and that string; it leaves the store alone, makes
    no dispatch call and cannot throw. *)
Theorem getDatabase_builds_handle (id : string) (sd : Store Databases.t)
    (hd : Handler (Store Databases.t)) :
  Databases.getDatabase id sd = Done sd (new_Database (Databases.client (self sd)) id)
  /\ database_id (new_Database (Databases.client (self sd)) id) = id
  /\ run hd (Databases.getDatabase id sd)
     = ([], Returns sd (new_Database (Databases.client (self sd)) id)).
Proof. repeat split. Qed.

End Claims.

(** ** The claims at the sample setting *)

Lemma invalid_definition_rejected_before_dispatch_witness :
  UserDefinedFunctions.create (H := SpecHelper) 1%positive None Sample.udfs_store
  = Fail (checked_store (H := SpecHelper) Sample.udfs_store 1%positive Sample.anonymous)
      (VRef 3%positive).
Proof.
  refine (proj1 (proj2 (proj2
    (invalid_definition_rejected_before_dispatch (H := SpecHelper)
       Sample.udfs_store 1%positive Sample.anonymous None _ _)))).
  - reflexivity.
  - reflexivity.
Defined.

Lemma valid_definition_response_witness :
  run SampleService.accepting
    (UserDefinedFunctions.create (H := SpecHelper) 2%positive None Sample.udfs_store)
  = ([existT _ (ClientContext_create Sample.clientContext 2%positive
                  "dbs/db/colls/coll/udfs" "udfs" "dbs/db/colls/coll" VUndefined None)],
     Returns (checked_store (H := SpecHelper) Sample.udfs_store 2%positive Sample.tax)
       (let handle := new_UserDefinedFunction Sample.container (VString "tax")
                        Sample.clientContext in
        {| UserDefinedFunctionResponse.body := result Sample.stored;
           UserDefinedFunctionResponse.headers := headers Sample.stored;
           UserDefinedFunctionResponse.ref := handle;
           UserDefinedFunctionResponse.userDefinedFunction := handle;
           UserDefinedFunctionResponse.udf := handle |})).
Proof.
  refine (proj1
    (valid_definition_response (H := SpecHelper) Sample.udfs_store 2%positive
       Sample.tax None SampleService.accepting Sample.stored _ _) _).
  - reflexivity.
  - reflexivity.
  - reflexivity.
Defined.

Lemma definition_mutated_in_place_witness :
  heap (first_store
          (UserDefinedFunctions.create (H := SpecHelper) 1%positive None Sample.udfs_store))
    !! 1%positive
  = Some {[ "body" := VString "function () { return 1; }" ]}.
Proof.
  refine (proj1
    (definition_mutated_in_place (H := SpecHelper) Sample.udfs_store 1%positive
       Sample.anonymous None _ _)).
  - reflexivity.
  - reflexivity.
Defined.

Lemma requests_name_udfs_path_witness :
  (run SampleService.accepting
     (UserDefinedFunctions.create (H := SpecHelper) 2%positive None Sample.udfs_store)).1
  = [existT _ (ClientContext_create Sample.clientContext 2%positive
                 "dbs/db/colls/coll/udfs" "udfs" "dbs/db/colls/coll" VUndefined None)].
Proof.
  refine (proj1
    (requests_name_udfs_path (H := SpecHelper) Sample.udfs_store Sample.udfs_store
       2%positive Sample.tax None None None None SampleService.accepting _)).
  reflexivity.
Defined.

Lemma facade_methods_by_kind_witness :
  run (SampleService.rejecting (VString "429"))
    (UserDefinedFunctions.upsert (H := SpecHelper) 2%positive None Sample.udfs_store)
  = ([existT _ (ClientContext_upsert Sample.clientContext 2%positive
                  "dbs/db/colls/coll/udfs" "udfs" "dbs/db/colls/coll" VUndefined None)],
     Throws (checked_store (H := SpecHelper) Sample.udfs_store 2%positive Sample.tax)
       (VString "429")).
Proof.
  refine (proj1 (proj2 (proj2
    (facade_methods_by_kind (H := SpecHelper) Sample.udfs_store Sample.databases_store
       2%positive 2%positive Sample.tax None None None
       (SampleService.rejecting (VString "429"))
       (SampleService.rejecting (VString "429")) _)))).
  reflexivity.
Defined.

(** C5, as stated, fails on [Databases.create]: there is no dispatch layer
    and no answer for which it ends with anything but that answer, in the
    store it was entered with. *)
Lemma Databases_create_reshapes_nothing :
  ~ reshapes_response
      (DocumentClient_createDatabase (documentClient Sample.cosmosClient) 2%positive None)
      (Databases.create 2%positive None) Sample.databases_store.
Proof.
  intros (h & x & Hh & Hne). apply Hne.
  rewrite Databases_create_run.
  change (Databases.client (self Sample.databases_store)) with Sample.cosmosClient.
  by rewrite Hh.
Qed.

(** C6, as stated, fails on [query] and on [getDatabase]: neither hands over
    to the dispatch layer, so neither waits for a network response. *)
Lemma query_and_getDatabase_do_not_await :
  ~ awaits_dispatch
      (UserDefinedFunctions.query (H := SpecHelper) None None Sample.udfs_store)
  /\ ~ awaits_dispatch (Databases.getDatabase "db" Sample.databases_store).
Proof. split; intros []. Qed.

(** ** Sample runs *)

Example sample_create_rejected_by_service :
  (run (SampleService.rejecting (VString "429"))
     (UserDefinedFunctions.create (H := SpecHelper) 2%positive None Sample.udfs_store)).2
  = Throws (checked_store (H := SpecHelper) Sample.udfs_store 2%positive Sample.tax)
      (VString "429").
Proof. reflexivity. Qed.

Example sample_create_without_id :
  run SampleService.accepting
    (UserDefinedFunctions.create (H := SpecHelper) 1%positive None Sample.udfs_store)
  = ([], Throws (mkStore Sample.udfs
                   (<[3%positive := ∅]>
                      (<[1%positive := {[ "body" := VString "function () { return 1; }" ]}]>
                         Sample.objects)))
           (VRef 3%positive)).
Proof. reflexivity. Qed.

Example sample_Databases_create_rejected :
  run (SampleService.rejecting (VString "503"))
    (Databases.create 2%positive None Sample.databases_store)
  = ([existT _ (DocumentClient_createDatabase (documentClient Sample.cosmosClient)
                  2%positive None)],
     Returns Sample.databases_store (Rejected (VString "503"))).
Proof. reflexivity. Qed.

Example sample_getDatabase_empty_id :
  Databases.getDatabase "" Sample.databases_store
  = Done Sample.databases_store (new_Database Sample.cosmosClient "").
Proof. reflexivity. Qed.

Example sample_readAll_fetch :
  match UserDefinedFunctions.readAll (H := SpecHelper) None Sample.udfs_store with
  | Done _ it =>
      (run SampleService.accepting
         (UserDefinedFunctions.fetchFunctions it None Sample.udfs_store)).2
      = Returns Sample.udfs_store (Fulfilled Sample.stored)
  | _ => False
  end.
Proof. reflexivity. Qed.

(** * Further properties of the facades *)

(** ** Normalisation *)

Lemma prop_lookup (d : JsObject) (p : string) (v : JsVal) :
  prop d p = v -> v ≠ VUndefined -> d !! p = Some v.
Proof.
  unfold prop. destruct (d !! p) as [w|]; cbn; intros Hv Hne; [by subst | congruence].
Qed.

Lemma prop_insert_eq (d : JsObject) (p : string) (v : JsVal) :
  prop (<[p := v]> d) p = v.
Proof. unfold prop. by rewrite lookup_insert_eq. Qed.

Lemma normalise_text (d : JsObject) : body_is_text d -> normalise d = d.
Proof.
  intros [Hu | (str & Hs)].
  - apply normalise_falsy. by rewrite Hu.
  - destruct (truthy (prop d "body")) eqn:Ht.
    + rewrite normalise_truthy by done. rewrite Hs. cbn.
      apply insert_id, prop_lookup; [done | discriminate].
    + by apply normalise_falsy.
Qed.

Lemma normalise_body_is_text (d : JsObject) : body_is_text (normalise d).
Proof.
  destruct (truthy (prop d "body")) eqn:Ht.
  - rewrite normalise_truthy by done. right. eexists. apply prop_insert_eq.
  - rewrite normalise_falsy by done.
    destruct (prop d "body") eqn:Hp; try discriminate.
    + by left.
    + right. eauto.
Qed.

Lemma normalise_idempotent (d : JsObject) : normalise (normalise d) = normalise d.
Proof. apply normalise_text, normalise_body_is_text. Qed.

Lemma respond_store (s : Store UserDefinedFunctions.t) (r : CallResult (Promise Response)) :
  outcome_store (respond s r) = s.
Proof. by destruct r as [[?|?]|?]. Qed.

Section UserDefinedFunctionsStores.
Context `{Helper}.
Import UserDefinedFunctions.



Lemma create_final_store (h : Handler (Store t)) (s : Store t) (b : loc)
    (o : option RequestOptions) (d : JsObject) :
  heap s !! b = Some d ->
  outcome_store (run h (create b o s)).2 = checked_store s b d.
Proof.
  intros Hb. pose proof (create_checked s b o d Hb) as Hc.
  destruct (isResourceValid (normalise d) ∅).1.
  - destruct Hc as (k & -> & Hk).
    rewrite run_Call, Hk, after_dispatch_run. apply respond_store.
  - by rewrite Hc.
Qed.

Lemma upsert_final_store (h : Handler (Store t)) (s : Store t) (b : loc)
    (o : option RequestOptions) (d : JsObject) :
  heap s !! b = Some d ->
  outcome_store (run h (upsert b o s)).2 = checked_store s b d.
Proof.
  intros Hb. pose proof (upsert_checked s b o d Hb) as Hc.
  destruct (isResourceValid (normalise d) ∅).1.
  - destruct Hc as (k & -> & Hk).
    rewrite run_Call, Hk, after_dispatch_run. apply respond_store.
  - by rewrite Hc.
Qed.

Lemma checked_store_other (s : Store t) (b l : loc) (d o : JsObject) :
  heap s !! l = Some o -> l ≠ b -> heap (checked_store s b d) !! l = Some o.
Proof.
  intros Hl Hne. unfold checked_store. cbn.
  rewrite lookup_insert_ne by (apply fresh_not_live; eauto).
  by rewrite lookup_insert_ne.
Qed.


End UserDefinedFunctionsStores.

(** ** What [create] and [upsert] do to the heap *)

Section UserDefinedFunctionsExtras.
Context `{Helper}.
Import UserDefinedFunctions.


(** X2.  A definition whose body is absent or already a string comes out of
    [create] and [upsert] exactly as it went in, whether the call succeeds,
    is rejected by validation or fails in the dispatch layer. *)
Theorem definition_with_text_body_unchanged
    (s : Store t) (b : loc) (d : JsObject) (options : option RequestOptions)
    (h : Handler (Store t)) :
  heap s !! b = Some d ->
  body_is_text d ->
  heap (outcome_store (run h (create b options s)).2) !! b = Some d
  /\ heap (outcome_store (run h (upsert b options s)).2) !! b = Some d.
Proof.
  intros Hb Htext.
  rewrite (create_final_store h s b options d Hb),
    (upsert_final_store h s b options d Hb).
  pose proof (checked_store_definition s b d Hb) as Hd.
  rewrite (normalise_text d Htext) in Hd. by split.
Qed.

(** X3.  Calling again on the same object changes nothing more: after a
    first [create], a following [upsert] (or [create]) on the store it left,
    under any dispatch layer, leaves the definition as the first call left
    it. *)
Theorem repeated_calls_leave_definition_normalised
    (s : Store t) (b : loc) (d : JsObject) (o1 o2 : option RequestOptions)
    (h1 h2 : Handler (Store t)) :
  heap s !! b = Some d ->
  let s1 := outcome_store (run h1 (create b o1 s)).2 in
  heap s1 !! b = Some (normalise d)
  /\ heap (outcome_store (run h2 (upsert b o2 s1)).2) !! b = Some (normalise d)
  /\ heap (outcome_store (run h2 (create b o2 s1)).2) !! b = Some (normalise d).
Proof.
  intros Hb s1. unfold s1.
  rewrite (create_final_store h1 s b o1 d Hb).
  pose proof (checked_store_definition s b d Hb) as Hd.
  split; [done|].
  rewrite (upsert_final_store h2 _ b o2 _ Hd), (create_final_store h2 _ b o2 _ Hd).
  pose proof (checked_store_definition _ b _ Hd) as Hd2.
  rewrite normalise_idempotent in Hd2. by split.
Qed.


(** X5.  [create] and [upsert] differ in the dispatch method they call and
    in nothing else: they end in the same store, make the same number of
    calls, and under a dispatch layer that answers the two calls alike they
    end alike. *)
Theorem create_and_upsert_differ_only_in_call
    (s : Store t) (b : loc) (d : JsObject) (options : option RequestOptions)
    (h : Handler (Store t)) :
  heap s !! b = Some d ->
  let path := getPathFromLink (url (container (self s))) (Some "udfs") in
  let id := getIdFromLink (url (container (self s))) in
  let s' := checked_store s b d in
  let creating := ClientContext_create (clientContext (self s)) b path "udfs" id
                    VUndefined options in
  let upserting := ClientContext_upsert (clientContext (self s)) b path "udfs" id
                     VUndefined options in
  outcome_store (run h (create b options s)).2
  = outcome_store (run h (upsert b options s)).2
  /\ List.length (run h (create b options s)).1
     = List.length (run h (upsert b options s)).1
  /\ (h _ creating s' = h _ upserting s' ->
      (run h (create b options s)).2 = (run h (upsert b options s)).2).
Proof.
  intros Hb path id s' creating upserting.
  rewrite (create_final_store h s b options d Hb),
    (upsert_final_store h s b options d Hb).
  pose proof (create_checked s b options d Hb) as Hc.
  pose proof (upsert_checked s b options d Hb) as Hu.
  split; [done|].
  destruct (isResourceValid (normalise d) ∅).1.
  - destruct Hc as (kc & -> & Hkc). destruct Hu as (ku & -> & Hku).
    rewrite !run_Call, Hkc, Hku, !after_dispatch_run. cbn.
    split; [done|]. intros Hh. unfold creating, upserting, s', path, id in Hh.
    by rewrite Hh.
  - by rewrite Hc, Hu.
Qed.

(** X6.  Every rejection throws an object of its own.  When a definition
    is rejected twice in a row, the second error object is at a reference
    different from the first, the first is still in the heap as it was
    thrown, and neither is the definition. *)
Theorem rejections_throw_distinct_objects
    (s : Store t) (b : loc) (d : JsObject) (o1 o2 : option RequestOptions) :
  heap s !! b = Some d ->
  fst (isResourceValid (normalise d) ∅) = false ->
  let err := snd (isResourceValid (normalise d) ∅) in
  exists s1 e1 s2 e2,
    create b o1 s = Fail s1 (VRef e1)
    /\ upsert b o2 s1 = Fail s2 (VRef e2)
    /\ e1 ≠ e2 /\ e1 ≠ b /\ e2 ≠ b
    /\ heap s2 !! e1 = Some err
    /\ heap s2 !! e2 = Some err
    /\ heap s2 !! b = Some (normalise d).
Proof.
  intros Hb Hv err.
  pose proof (create_checked s b o1 d Hb) as Hc. rewrite Hv in Hc.
  pose proof (checked_store_definition s b d Hb) as Hd.
  pose proof (checked_store_error s b d) as He1. fold err in He1.
  pose proof (upsert_checked _ b o2 _ Hd) as Hu.
  pose proof (checked_store_definition _ b _ Hd) as Hd2.
  pose proof (checked_store_error (checked_store s b d) b (normalise d)) as He2.
  rewrite normalise_idempotent in Hu, Hd2, He2. rewrite Hv in Hu. fold err in He2.
  assert (fresh (dom (heap (checked_store s b d))) ≠ fresh (dom (heap s))) as Hne
    by (apply fresh_not_live; eauto).
  assert (fresh (dom (heap s)) ≠ b) as Hne1 by (apply fresh_not_live; eauto).
  assert (fresh (dom (heap (checked_store s b d))) ≠ b) as Hne2
    by (apply fresh_not_live; eauto).
  eexists _, _, _, _. split; [exact Hc|]. split; [exact Hu|].
  repeat split; try done.
  by apply checked_store_other.
Qed.

(** X7.  The id of the response is not checked.  When a valid definition
    is stored and the answer carries no id, [create] and [upsert] still
    return, and the handle they return has the id [undefined]. *)
Theorem response_without_id_gives_handle_without_id
    (s : Store t) (b : loc) (d : JsObject) (options : option RequestOptions)
    (h : Handler (Store t)) (response : Response) :
  heap s !! b = Some d ->
  fst (isResourceValid (normalise d) ∅) = true ->
  result response !! "id" = None ->
  let path := getPathFromLink (url (container (self s))) (Some "udfs") in
  let id := getIdFromLink (url (container (self s))) in
  let s' := checked_store s b d in
  h _ (ClientContext_create (clientContext (self s)) b path "udfs" id VUndefined options) s'
  = Returned (Fulfilled response) ->
  h _ (ClientContext_upsert (clientContext (self s)) b path "udfs" id VUndefined options) s'
  = Returned (Fulfilled response) ->
  exists r,
    (run h (create b options s)).2 = Returns s' r
    /\ (run h (upsert b options s)).2 = Returns s' r
    /\ UserDefinedFunctionResponse.body r = result response
    /\ udf_id (UserDefinedFunctionResponse.ref r) = VUndefined
    /\ udf_id (UserDefinedFunctionResponse.userDefinedFunction r) = VUndefined
    /\ udf_id (UserDefinedFunctionResponse.udf r) = VUndefined.
Proof.
  intros Hb Hv Hid path id s' Hhc Hhu.
  pose proof (create_checked s b options d Hb) as Hc.
  pose proof (upsert_checked s b options d Hb) as Hu.
  rewrite Hv in Hc, Hu.
  destruct Hc as (kc & -> & Hkc). destruct Hu as (ku & -> & Hku).
  unfold s', path, id in Hhc, Hhu.
  rewrite !run_Call, Hhc, Hhu, Hkc, Hku. cbn.
  eexists. split; [reflexivity|]. split; [reflexivity|]. cbn.
  unfold prop. rewrite Hid. done.
Qed.

(** X8.  A facade made by the constructor for a container and a client
    context takes its client from the container's database, sends its
    request through that client context to the path of that container, and
    returns handles that sit in that container and carry that context. *)
Theorem constructed_facade_uses_its_container
    (c : Container) (ctx : ClientContext) (heap0 : Heap) (b : loc) (d : JsObject)
    (options : option RequestOptions) (h : Handler (Store t)) (response : Response) :
  let s := mkStore (constructor c ctx) heap0 in
  let s' := checked_store s b d in
  let creating := ClientContext_create ctx b (getPathFromLink (url c) (Some "udfs"))
                    "udfs" (getIdFromLink (url c)) VUndefined options in
  heap0 !! b = Some d ->
  fst (isResourceValid (normalise d) ∅) = true ->
  h _ creating s' = Returned (Fulfilled response) ->
  client (constructor c ctx) = database_client (container_database c)
  /\ exists r,
      run h (create b options s) = ([existT _ creating], Returns s' r)
      /\ udf_container (UserDefinedFunctionResponse.ref r) = c
      /\ udf_clientContext (UserDefinedFunctionResponse.ref r) = ctx
      /\ udf_id (UserDefinedFunctionResponse.ref r) = prop (result response) "id".
Proof.
  intros s s' creating Hb Hv Hh. split; [reflexivity|].
  pose proof (create_checked s b options d Hb) as Hc. rewrite Hv in Hc.
  destruct Hc as (k & -> & Hk).
  unfold creating, s' in Hh. cbn in Hh.
  rewrite run_Call. cbn [self s container clientContext constructor].
  rewrite Hh, Hk. cbn. eexists. repeat split.
Qed.

End UserDefinedFunctionsExtras.

(** ** [Databases] and the facades reached through it *)

(** X9.  A [Databases] facade made for a client sends every request to that
    client's [documentClient], and the handle [getDatabase] returns carries
    the same client: a [UserDefinedFunctions] facade made for any container
    of that database has that client as its own. *)
Theorem Databases_handles_share_the_client `{Helper}
    (cl : CosmosClient) (heap0 : Heap) (id : string) (ctx : ClientContext)
    (b : loc) (options : option RequestOptions) (q : option SqlQuerySpec)
    (fo : option FeedOptions) (hd : Handler (Store Databases.t)) :
  let sd := mkStore (Databases.constructor cl) heap0 in
  (exists db,
     Databases.getDatabase id sd = Done sd db
     /\ database_id db = id
     /\ forall (container_id container_url : string),
         UserDefinedFunctions.client
           (UserDefinedFunctions.constructor
              {| container_database := db; container_id := container_id;
                 url := container_url |} ctx) = cl)
  /\ (run hd (Databases.query q fo sd)).1
     = [existT _ (DocumentClient_queryDatabases (documentClient cl) q fo)]
  /\ (run hd (Databases.create b options sd)).1
     = [existT _ (DocumentClient_createDatabase (documentClient cl) b options)]
  /\ (run hd (Databases.read fo sd)).1
     = [existT _ (DocumentClient_readDatabases (documentClient cl) fo)].
Proof.
  intros sd. split.
  - eexists. repeat split.
  - by rewrite Databases_query_run, Databases_create_run, Databases_read_run.
Qed.

(** ** The further properties at the sample setting *)


Lemma definition_with_text_body_unchanged_witness :
  heap (outcome_store
          (run (SampleService.rejecting (VString "503"))
             (UserDefinedFunctions.create (H := SpecHelper) 5%positive None
                (mkStore Sample.udfs
                   {[ 5%positive := <["id" := VString "one"]>
                                      {[ "body" := VString "function () { return 1; }" ]} ]}))).2)
    !! 5%positive
  = Some (<["id" := VString "one"]> {[ "body" := VString "function () { return 1; }" ]}).
Proof.
  refine (proj1
    (definition_with_text_body_unchanged (H := SpecHelper) _ 5%positive _ None
       (SampleService.rejecting (VString "503")) _ _)).
  - reflexivity.
  - right. eexists. reflexivity.
Defined.

Lemma repeated_calls_leave_definition_normalised_witness :
  heap (outcome_store
          (run SampleService.accepting
             (UserDefinedFunctions.upsert (H := SpecHelper) 2%positive None
                (outcome_store
                   (run (SampleService.rejecting (VString "503"))
                      (UserDefinedFunctions.create (H := SpecHelper) 2%positive None
                         Sample.udfs_store)).2))).2)
    !! 2%positive
  = Some (normalise Sample.tax).
Proof.
  refine (proj1 (proj2
    (repeated_calls_leave_definition_normalised (H := SpecHelper) Sample.udfs_store
       2%positive Sample.tax None None (SampleService.rejecting (VString "503"))
       SampleService.accepting _))).
  reflexivity.
Defined.


Lemma create_and_upsert_differ_only_in_call_witness :
  (run SampleService.accepting
     (UserDefinedFunctions.create (H := SpecHelper) 2%positive None Sample.udfs_store)).2
  = (run SampleService.accepting
       (UserDefinedFunctions.upsert (H := SpecHelper) 2%positive None Sample.udfs_store)).2.
Proof.
  refine (proj2 (proj2
    (create_and_upsert_differ_only_in_call (H := SpecHelper) Sample.udfs_store
       2%positive Sample.tax None SampleService.accepting _)) _).
  - reflexivity.
  - reflexivity.
Defined.

Lemma rejections_throw_distinct_objects_witness :
  exists s1 e1 s2 e2,
    UserDefinedFunctions.create (H := SpecHelper) 1%positive None Sample.udfs_store
    = Fail s1 (VRef e1)
    /\ UserDefinedFunctions.upsert (H := SpecHelper) 1%positive None s1 = Fail s2 (VRef e2)
    /\ e1 ≠ e2 /\ e1 ≠ 1%positive /\ e2 ≠ 1%positive
    /\ heap s2 !! e1 = Some ∅
    /\ heap s2 !! e2 = Some ∅
    /\ heap s2 !! 1%positive = Some (normalise Sample.anonymous).
Proof.
  refine (rejections_throw_distinct_objects (H := SpecHelper) Sample.udfs_store
            1%positive Sample.anonymous None None _ _).
  - reflexivity.
  - reflexivity.
Defined.

Lemma response_without_id_gives_handle_without_id_witness :
  exists r,
    (run (SampleService.answering {| result := ∅; headers := ∅ |})
       (UserDefinedFunctions.create (H := SpecHelper) 2%positive None Sample.udfs_store)).2
    = Returns (checked_store (H := SpecHelper) Sample.udfs_store 2%positive Sample.tax) r
    /\ (run (SampleService.answering {| result := ∅; headers := ∅ |})
          (UserDefinedFunctions.upsert (H := SpecHelper) 2%positive None Sample.udfs_store)).2
       = Returns (checked_store (H := SpecHelper) Sample.udfs_store 2%positive Sample.tax) r
    /\ UserDefinedFunctionResponse.body r = ∅
    /\ udf_id (UserDefinedFunctionResponse.ref r) = VUndefined
    /\ udf_id (UserDefinedFunctionResponse.userDefinedFunction r) = VUndefined
    /\ udf_id (UserDefinedFunctionResponse.udf r) = VUndefined.
Proof.
  refine (response_without_id_gives_handle_without_id (H := SpecHelper)
            Sample.udfs_store 2%positive Sample.tax None
            (SampleService.answering {| result := ∅; headers := ∅ |})
            {| result := ∅; headers := ∅ |} _ _ _ _ _).
  - reflexivity.
  - reflexivity.
  - reflexivity.
  - reflexivity.
  - reflexivity.
Defined.

Lemma constructed_facade_uses_its_container_witness :
  exists r,
    run SampleService.accepting
      (UserDefinedFunctions.create (H := SpecHelper) 2%positive None
         (mkStore (UserDefinedFunctions.constructor Sample.container Sample.clientContext)
            Sample.objects))
    = ([existT _ (ClientContext_create Sample.clientContext 2%positive
                    "dbs/db/colls/coll/udfs" "udfs" "dbs/db/colls/coll" VUndefined None)],
       Returns (checked_store (H := SpecHelper) Sample.udfs_store 2%positive Sample.tax) r)
    /\ udf_container (UserDefinedFunctionResponse.ref r) = Sample.container
    /\ udf_clientContext (UserDefinedFunctionResponse.ref r) = Sample.clientContext
    /\ udf_id (UserDefinedFunctionResponse.ref r) = prop (result Sample.stored) "id".
Proof.
  refine (proj2
    (constructed_facade_uses_its_container (H := SpecHelper) Sample.container
       Sample.clientContext Sample.objects 2%positive Sample.tax None
       SampleService.accepting Sample.stored _ _ _)).
  - reflexivity.
  - reflexivity.
  - reflexivity.
Defined.
